(** * BHOOMI safety dashboard: the decision core of [BHM2.0.py]

    The script is executed top to bottom once per refresh ("tick").  The
    development embeds the parts of a tick that decide something: the data
    source selection with the session frame, the risk classification, the
    restricted-area detection, the two alert buttons and the percentile
    bounds handed to the trend charts; then the metrics row, the alerts
    log, the restricted-area notice and the labels and bars of the worker
    and forecast charts. *)

From Stdlib Require Import List String ZArith QArith Bool Lia Arith.
From Stdlib Require Import Qround Qminmax.
From Stdlib Require Import DecimalString DecimalNat FinFun.
Import ListNotations.

Local Open Scope string_scope.
Local Open Scope list_scope.
Local Open Scope Z_scope.

(** ** Risk classification (lines 162 and 193-194) *)

Module Classifier.

(** The three labels shown by the "Current Risk" metric. *)
Inductive SeverityTier := HIGH | MEDIUM | LOW.

(** The three values written to the "Action" column of the alerts log. *)
Inductive Action := Evacuation | Warning | Monitoring.

(** [risk_status = "HIGH" if current_risk > 70 else "MEDIUM" if
    current_risk > 40 else "LOW"] *)
Definition risk_status (current_risk : Z) : SeverityTier :=
  if current_risk >? 70 then HIGH
  else if current_risk >? 40 then MEDIUM
  else LOW.

(** One cell of [np.where(Risk > 70, "Evacuation",
    np.where(Risk > 40, "Warning", "Monitoring"))]. *)
Definition action (risk : Z) : Action :=
  if risk >? 70 then Evacuation
  else if risk >? 40 then Warning
  else Monitoring.

(** The pair the dashboard derives from one score. *)
Definition classify (risk_score : Z) : SeverityTier * Action :=
  (risk_status risk_score, action risk_score).

End Classifier.

(** ** Restricted-area detection (lines 198-200) *)

Module Detector.

Definition Zone := string.

(** [zone in restricted_areas] on a Python list of strings. *)
Definition zone_in (zone : Zone) (restricted_areas : list Zone) : bool :=
  existsb (String.eqb zone) restricted_areas.

(** [restricted_areas = ["Zone A", "Zone C", "Zone E"]] *)
Definition restricted_areas : list Zone := ["Zone A"; "Zone C"; "Zone E"].

(** The five names [np.random.choice] draws [worker_zones] from. *)
Definition all_zones : list Zone :=
  ["Zone A"; "Zone B"; "Zone C"; "Zone D"; "Zone E"].

(** [[zone for zone in worker_zones if zone in restricted_areas]] *)
Definition restricted_alerts (worker_zones restricted : list Zone) : list Zone :=
  filter (fun zone => zone_in zone restricted) worker_zones.

(** A worker together with the zone drawn for it; in the script the
    worker is the position in [worker_zones]. *)
Definition WorkerAssignment := (string * Zone)%type.

(** The detector on explicit assignments: the comprehension runs over the
    zones of the assignments, in their order. *)
Definition detect (assignments : list WorkerAssignment) (restricted : list Zone)
  : list Zone :=
  restricted_alerts (map snd assignments) restricted.

(** Keep the first occurrence of every zone, in order of appearance. *)
Fixpoint first_seen (zs : list Zone) : list Zone :=
  match zs with
  | [] => []
  | z :: rest => z :: filter (fun z' => negb (String.eqb z' z)) (first_seen rest)
  end.

(** The detector as the contract words it: the restricted zones that have
    at least one worker, each listed once, in the order zones first appear
    in the assignments. *)
Definition detect_spec (assignments : list WorkerAssignment) (restricted : list Zone)
  : list Zone :=
  filter (fun zone => zone_in zone restricted) (first_seen (map snd assignments)).

End Detector.

(** ** The two alert buttons (lines 209-217) *)

Module Dispatcher.

Inductive Trigger := ZoneIntrusion | ManualRequest.

Inductive Outcome := Sent | Suppressed_NoIntrusion.

(** What the handler is given: which button was pressed and, for the
    restricted-area button, the list [restricted_alerts]. *)
Record AlertEvent := { trigger : Trigger; payload : option (list Detector.Zone) }.

(** Python truth value of the payload: [None] and [[]] are false. *)
Definition truthy (p : option (list Detector.Zone)) : bool :=
  match p with
  | Some (_ :: _) => true
  | _ => false
  end.

(** "Alert Workers Near Restricted Area": [st.success("Alert sent ...")]
    when [restricted_alerts] is true, [st.info("No workers ...")]
    otherwise.  "SEND ALERT NOW": [st.success("Alert sent ...")]. *)
Definition dispatch (event : AlertEvent) : Outcome :=
  match trigger event with
  | ZoneIntrusion => if truthy (payload event) then Sent else Suppressed_NoIntrusion
  | ManualRequest => Sent
  end.

End Dispatcher.

(** ** Frames, the session frame and the data source (lines 27-57, 161) *)

Module Frame.

(** A cell of a frame.  Floating-point cells are modelled by exact
    rationals; [NaN] is the value pandas uses for a missing entry. *)
Inductive Cell := Str (s : string) | Int (n : Z) | Float (x : Q) | NaN.

(** A row is a Python dict from column name to cell. *)
Definition Row := list (string * Cell).

Record DataFrame := { columns : list string; rows : list Row }.

Fixpoint get (key : string) (row : Row) : Cell :=
  match row with
  | [] => NaN
  | (k, v) :: rest => if String.eqb k key then v else get key rest
  end.

(** [pd.DataFrame(columns=cols)] *)
Definition empty_frame (cols : list string) : DataFrame :=
  {| columns := cols; rows := [] |}.

(** [pd.DataFrame([d])]: one row, the columns are the keys of [d]. *)
Definition of_dicts (d : Row) : DataFrame :=
  {| columns := map fst d; rows := [d] |}.

(** [pd.concat([a, b], ignore_index=True)]: the rows of [a] followed by the
    rows of [b]; a column of [b] unknown to [a] is added on the right. *)
Definition concat (a b : DataFrame) : DataFrame :=
  {| columns := columns a ++
                filter (fun c => negb (existsb (String.eqb c) (columns a))) (columns b);
     rows := rows a ++ rows b |}.

(** [df.tail(n)]: the last [n] rows, in order. *)
Definition tail (n : nat) (df : DataFrame) : DataFrame :=
  {| columns := columns df;
     rows := skipn (List.length (rows df) - n) (rows df) |}.

End Frame.

(** Exceptions the embedded code can raise. *)
Inductive exn :=
| KeyError (key : string)   (* [df[key]] on a frame without that column *)
| IndexError                (* [.iloc[-1]] on a frame without rows *)
| ValueError                (* a percentile outside [0, 1] *)
| ReadError.                (* [pd.read_csv] failed: missing, empty or unparsable file *)

Inductive result (A : Type) := Ret (a : A) | Raise (e : exn).
Arguments Ret {A} a.
Arguments Raise {A} e.

Module Session.
Import Frame.

Inductive Mode := SimulatedLiveData | PreloadedCSV | UploadCSV.

(** The values one simulated tick obtains from the clock and from
    [np.random] (already rounded where the script rounds). *)
Record Draws := {
  now : string;
  vibration : Q;
  slope : Q;
  weather : string;
  risk : Z
}.

(** The dict literal [new_data]. *)
Definition new_data (d : Draws) : Row :=
  [ ("Timestamp", Str (now d));
    ("Vibration", Float (vibration d));
    ("Slope", Float (slope d));
    ("Weather", Str (weather d));
    ("Risk", Int (risk d)) ].

(** What one tick receives from outside: the radio selection, what
    [pd.read_csv("mine_sensor_data.csv")] does, the uploader's value
    ([None] when no file is uploaded, otherwise what [pd.read_csv] does
    on it), and the simulated draws. *)
Record TickInput := {
  mode : Mode;
  preloaded : result DataFrame;
  uploaded : option (result DataFrame);
  draws : Draws
}.

(** Messages shown before [st.stop()]. *)
Inductive Message :=
| st_error (text : string)
| st_warning (text : string).

(** How a section of the script ends: it goes on with a value, it halts
    the tick through [st.stop()] after a message, or an exception leaves
    the script uncaught. *)
Inductive Step (A : Type) :=
| Continue (a : A)
| Stop (m : Message)
| Uncaught (e : exn).
Arguments Continue {A} a.
Arguments Stop {A} m.
Arguments Uncaught {A} e.

(** [st.session_state]: only the key ["df"] is ever used; [None] when the
    key is absent. *)
Definition SessionState := option DataFrame.

Definition session_columns : list string :=
  ["Timestamp"; "Vibration"; "Slope"; "Weather"; "Risk"].

(** Lines 29-57.  Returns the session state after the section and the
    frame [df] the rest of the script works on. *)
Definition data_source (i : TickInput) (ss : SessionState)
  : SessionState * Step DataFrame :=
  match mode i with
  | PreloadedCSV =>
      match preloaded i with
      | Ret df => (ss, Continue df)
      | Raise _ => (ss, Stop (st_error "Preloaded file 'mine_sensor_data.csv' not found."))
      end
  | UploadCSV =>
      match uploaded i with
      | Some (Ret df) => (ss, Continue df)
      | Some (Raise e) => (ss, Uncaught e)
      | None => (ss, Stop (st_warning "Please upload a CSV to continue."))
      end
  | SimulatedLiveData =>
      let held := match ss with
                  | Some df => df
                  | None => empty_frame session_columns
                  end in
      let held' := concat held (of_dicts (new_data (draws i))) in
      (Some held', Continue (tail 50 held'))
  end.

(** [df["Risk"].iloc[-1]] (line 161). *)
Definition current_risk (df : DataFrame) : result Cell :=
  if existsb (String.eqb "Risk") (columns df) then
    match rev (rows df) with
    | [] => Raise IndexError
    | r :: _ => Ret (get "Risk" r)
    end
  else Raise (KeyError "Risk").

(** One tick up to the current risk. *)
Definition tick (i : TickInput) (ss : SessionState) : SessionState * Step Cell :=
  match data_source i ss with
  | (ss', Continue df) =>
      match current_risk df with
      | Ret c => (ss', Continue c)
      | Raise e => (ss', Uncaught e)
      end
  | (ss', Stop m) => (ss', Stop m)
  | (ss', Uncaught e) => (ss', Uncaught e)
  end.

(** The session state after a sequence of ticks. *)
Fixpoint run (inputs : list TickInput) (ss : SessionState) : SessionState :=
  match inputs with
  | [] => ss
  | i :: rest => run rest (fst (tick i ss))
  end.

(** The readings the session holds. *)
Definition window (ss : SessionState) : list Row :=
  match ss with
  | Some df => rows df
  | None => []
  end.

(** The frame the dashboard shows in simulated mode: [session df .tail(50)]. *)
Definition snapshot (ss : SessionState) : list Row :=
  match ss with
  | Some df => rows (tail 50 df)
  | None => []
  end.

Definition no_read : result DataFrame := Raise ReadError.

(** A tick in simulated mode with the given draws. *)
Definition simulated (d : Draws) : TickInput :=
  {| mode := SimulatedLiveData; preloaded := no_read; uploaded := None; draws := d |}.

(** The draws of the simulated ticks of a run, in order. *)
Definition simulated_draws (inputs : list TickInput) : list Draws :=
  map draws (filter (fun i => match mode i with SimulatedLiveData => true | _ => false end)
                    inputs).

(** A tick with "Preloaded CSV" selected; [r] is what reading the file does. *)
Definition preloaded_csv (r : result DataFrame) (d : Draws) : TickInput :=
  {| mode := PreloadedCSV; preloaded := r; uploaded := None; draws := d |}.

(** A tick with "Upload CSV" selected; [u] is the uploader's value. *)
Definition upload_csv (u : option (result DataFrame)) (d : Draws) : TickInput :=
  {| mode := UploadCSV; preloaded := no_read; uploaded := u; draws := d |}.

(** The contract's reset rule, as it is worded: when the selection of a
    tick differs from the selection of the tick before, the readings held
    are discarded before anything is appended, so afterwards the session
    holds the new tick's reading at most. *)
Definition resets_on_switch : Prop :=
  forall (prev cur : TickInput) (ss : SessionState),
    mode prev <> mode cur ->
    window (run [prev; cur] ss) =
    match mode cur with
    | SimulatedLiveData => [new_data (draws cur)]
    | _ => []
    end.

(** The contract's capacity rule, as it is worded: whatever is appended,
    the session never holds more than 50 readings. *)
Definition holds_at_most_50 : Prop :=
  forall ds : list Draws,
    (List.length (window (run (map simulated ds) None)) <= 50)%nat.

(** The contract's load rule, as it is worded: a tick on an uploaded
    resource that is absent, unreadable or without the "Risk" column halts
    with a message instead of raising. *)
Definition bad_upload (u : option (result DataFrame)) : Prop :=
  match u with
  | None => True
  | Some (Raise _) => True
  | Some (Ret df) => existsb (String.eqb "Risk") (columns df) = false
  end.

Definition halts_on_bad_upload : Prop :=
  forall (u : option (result DataFrame)) (d : Draws) (ss : SessionState),
    bad_upload u -> exists m, snd (tick (upload_csv u d) ss) = Stop m.

End Session.

(** ** The simulated reading's random fields (lines 49-55) *)

Module Synthetic.

(** [np.random.randint(low, high)]: a discrete uniform draw from the
    integers [low] (inclusive) to [high] (exclusive).  The list holds the
    equally likely outcomes, each once. *)
Definition randint (low high : Z) : list Z :=
  map (fun k => low + Z.of_nat k) (seq 0 (Z.to_nat (high - low))).

(** ["Risk": np.random.randint(0, 100)] *)
Definition risk_outcomes : list Z := randint 0 100.

(** ["Weather": np.random.choice(["Sunny", "Rainy", "Cloudy", "Windy"])] *)
Definition weather_outcomes : list string := ["Sunny"; "Rainy"; "Cloudy"; "Windy"].

(** The probability of [v] under the uniform choice among [outcomes]. *)
Definition probability (outcomes : list Z) (v : Z) : Q :=
  inject_Z (Z.of_nat (count_occ Z.eq_dec outcomes v)) /
  inject_Z (Z.of_nat (List.length outcomes)).

(** Draws a simulated tick can obtain. *)
Definition synthetic (d : Session.Draws) : Prop :=
  In (Session.risk d) risk_outcomes /\ In (Session.weather d) weather_outcomes.

(** The range the contract gives for the risk score. *)
Definition in_percent_range (v : Z) : bool := (0 <=? v) && (v <=? 100).

(** The contract's distribution, as it is worded: every integer from 0 to
    100, 100 included, can be drawn, all with the same probability. *)
Definition uniform_on_0_100 : Prop :=
  forall v : Z,
    in_percent_range v = true ->
    In v risk_outcomes /\
    (probability risk_outcomes v == probability risk_outcomes 0)%Q.

End Synthetic.

(** ** Percentile bounds of a series (lines 84-87, 178-186) *)

Module Summarizer.

Local Open Scope Q_scope.

(** A float returned by a pandas reduction: a number (an exact rational in
    this model, rounding is not represented) or [nan]. *)
Inductive number := nan | num (x : Q).

Fixpoint insert (x : Q) (l : list Q) : list Q :=
  match l with
  | [] => [x]
  | y :: rest => if Qle_bool x y then x :: l else y :: insert x rest
  end.

(** The values in ascending order. *)
Fixpoint sort (l : list Q) : list Q :=
  match l with
  | [] => []
  | x :: rest => insert x (sort rest)
  end.

(** Linear interpolation between closest ranks, the default of
    [Series.quantile]: the virtual index [q * (n - 1)] into the sorted
    values, its two neighbours and the fractional part between them.
    The arithmetic here is exact; the library computes in binary floating
    point (rounding, infinities), so only the shape of the computation is
    recorded and nothing below is proved about the interpolated values. *)
Definition linear (sorted : list Q) (q : Q) : Q :=
  let n := List.length sorted in
  let virtual_index := q * inject_Z (Z.of_nat (n - 1)) in
  let previous := Qfloor virtual_index in
  let gamma := virtual_index - inject_Z previous in
  let lo := Z.to_nat previous in
  let hi := Nat.min (lo + 1) (n - 1) in
  let a := nth lo sorted 0 in
  let b := nth hi sorted 0 in
  a + (b - a) * gamma.

Definition valid_percentile (q : Q) : bool := Qle_bool 0 q && Qle_bool q 1.

(** [series.quantile(q)]: [ValueError] for [q] outside [0, 1], [nan] on an
    empty series. *)
Definition quantile (values : list Q) (q : Q) : result number :=
  if valid_percentile q then
    match values with
    | [] => Ret nan
    | _ :: _ => Ret (num (linear (sort values) q))
    end
  else Raise ValueError.

(** [series.min()] and [series.max()]: [nan] on an empty series. *)
Definition series_min (values : list Q) : number :=
  match values with
  | [] => nan
  | x :: rest => num (fold_left Qmin rest x)
  end.

Definition series_max (values : list Q) : number :=
  match values with
  | [] => nan
  | x :: rest => num (fold_left Qmax rest x)
  end.

(** The four numbers a trend chart is annotated with: the two quantiles
    passed as [low] and [high], and the extrema [trend_chart] takes itself. *)
Definition band (values : list Q) (low_q high_q : Q)
  : result (number * number * number * number) :=
  match quantile values low_q with
  | Raise e => Raise e
  | Ret low =>
      match quantile values high_q with
      | Raise e => Raise e
      | Ret high => Ret (low, high, series_min values, series_max values)
      end
  end.

(** The call sites: [quantile(0.3)] and [quantile(0.7)]. *)
Definition trend_bounds (values : list Q) := band values (3 # 10) (7 # 10).

End Summarizer.

(** ** Session states the script can reach *)

Module Reach.
Import Frame Session.

(** A session frame as the simulated branch builds it: the five session
    columns, every row a [new_data] dict. *)
Definition well_formed (ss : SessionState) : Prop :=
  match ss with
  | None => True
  | Some df => columns df = session_columns /\
               Forall (fun r => exists d, r = new_data d) (rows df)
  end.

(** The session frame a simulated tick leaves behind: the frame held (a
    new empty one when the key is absent) with the new reading appended. *)
Definition appended (ss : SessionState) (d : Draws) : DataFrame :=
  concat match ss with
         | Some df => df
         | None => empty_frame session_columns
         end (of_dicts (new_data d)).

End Reach.

(** ** Metrics row and alerts log (lines 160-167, 191-195) *)

Module Metrics.
Import Frame Classifier.

(** How a group of lookups and comparisons ends: with a value, with one of
    the lookup exceptions, or with the [TypeError] Python raises when a
    string is compared with a number. *)
Inductive outcome (A : Type) :=
| Value (a : A)
| Raised (e : exn)
| TypeError.
Arguments Value {A} a.
Arguments Raised {A} e.
Arguments TypeError {A}.

(** [df[key].iloc[-1]] *)
Definition column_last (key : string) (df : DataFrame) : result Cell :=
  if existsb (String.eqb key) (columns df) then
    match rev (rows df) with
    | [] => Raise IndexError
    | r :: _ => Ret (get key r)
    end
  else Raise (KeyError key).

(** [cell > threshold]: false for a missing value, [None] (a [TypeError])
    for a string. *)
Definition cell_gt (c : Cell) (threshold : Z) : option bool :=
  match c with
  | Int n => Some (n >? threshold)
  | Float x => Some (negb (Qle_bool x (inject_Z threshold)))
  | NaN => Some false
  | Str _ => None
  end.

(** Line 162 on the cell read on line 161. *)
Definition risk_status_cell (c : Cell) : option SeverityTier :=
  match cell_gt c 70 with
  | None => None
  | Some true => Some HIGH
  | Some false =>
      match cell_gt c 40 with
      | None => None
      | Some true => Some MEDIUM
      | Some false => Some LOW
      end
  end.

(** One entry of the [np.where] on lines 193-194; both comparisons are
    evaluated before either is used. *)
Definition action_cell (c : Cell) : option Action :=
  match cell_gt c 70, cell_gt c 40 with
  | Some high, Some medium =>
      Some (if high then Evacuation else if medium then Warning else Monitoring)
  | _, _ => None
  end.

(** Lines 161-167: the status shown as "Current Risk", the cell shown as
    "Last Update" and the cell shown as "Weather". *)
Definition metrics (df : DataFrame) : outcome (SeverityTier * Cell * Cell) :=
  match column_last "Risk" df with
  | Raise e => Raised e
  | Ret current_risk =>
      match risk_status_cell current_risk with
      | None => TypeError
      | Some risk_status =>
          match column_last "Timestamp" df with
          | Raise e => Raised e
          | Ret last_update =>
              match column_last "Weather" df with
              | Raise e => Raised e
              | Ret weather => Value (risk_status, last_update, weather)
              end
          end
      end
  end.

(** The "Action" entries for the given rows, or [None] when a comparison
    raises. *)
Fixpoint with_action (rs : list Row) : option (list (Row * Action)) :=
  match rs with
  | [] => Some []
  | r :: rest =>
      match action_cell (get "Risk" r), with_action rest with
      | Some a, Some l => Some ((r, a) :: l)
      | _, _ => None
      end
  end.

(** Lines 192-194: [alerts = df.tail(5).copy()] with the "Action" column
    added; every row is paired with its "Action" entry. *)
Definition alerts (df : DataFrame) : outcome (list (Row * Action)) :=
  if existsb (String.eqb "Risk") (columns df) then
    match with_action (rows (tail 5 df)) with
    | Some l => Value l
    | None => TypeError
    end
  else Raised (KeyError "Risk").

(** The action that goes with a status: the pairs of [classify]. *)
Definition action_of (t : SeverityTier) : Action :=
  match t with
  | HIGH => Evacuation
  | MEDIUM => Warning
  | LOW => Monitoring
  end.

End Metrics.

(** ** The restricted-area notice (lines 202-205) *)

Module Notice.
Import Detector.

Inductive Banner :=
| st_warning_workers_in (zones : string)   (* "Restricted Area Alert! Workers detected in: ..." *)
| st_info_no_workers.                      (* "No workers in restricted areas." *)

(** [', '.join(restricted_alerts)] *)
Definition joined (alerts : list Zone) : string := String.concat ", " alerts.

Definition banner (alerts : list Zone) : Banner :=
  match alerts with
  | [] => st_info_no_workers
  | _ :: _ => st_warning_workers_in (joined alerts)
  end.

(** What pressing "Alert Workers Near Restricted Area" is given in the
    same run of the script. *)
Definition zone_button (alerts : list Zone) : Dispatcher.AlertEvent :=
  {| Dispatcher.trigger := Dispatcher.ZoneIntrusion;
     Dispatcher.payload := Some alerts |}.

End Notice.

(** ** Forecast bars and worker labels (lines 122-125, 136) *)

Module Charts.

(** [str(n)] for a natural number: its decimal digits. *)
Definition str (n : nat) : string := NilEmpty.string_of_uint (Nat.to_uint n).

(** [[f"{i}h" for i in range(1, 7)]] *)
Definition hours : list string := map (fun i => str i ++ "h")%string (seq 1 6).

(** ["Forecast Risk %": np.random.randint(20, 95, size=6)] *)
Definition forecast_outcomes : list Z := Synthetic.randint 20 95.

(** [df_forecast]: the hour labels beside the six drawn values;
    [forecast k] is entry [k] of the drawn array. *)
Definition df_forecast (forecast : nat -> Z) : list (string * Z) :=
  combine hours (map forecast (seq 0 6)).

(** [[f"Worker {i+1}" for i in range(num_workers)]] *)
Definition worker_labels (num_workers : nat) : list string :=
  map (fun i => "Worker " ++ str (i + 1))%string (seq 0 num_workers).

End Charts.

(** * Properties *)

(** ** Risk classification *)

Module ClassifierFacts.
Import Classifier.

Lemma risk_status_cases (s : Z) :
  (s > 70 /\ risk_status s = HIGH) \/
  (40 < s <= 70 /\ risk_status s = MEDIUM) \/
  (s <= 40 /\ risk_status s = LOW).
Proof.
  unfold risk_status.
  destruct (Z.gtb_spec s 70); [left; split; [lia | reflexivity]|].
  destruct (Z.gtb_spec s 40); [right; left | right; right]; (split; [lia | reflexivity]).
Qed.

Lemma action_follows_status (s : Z) :
  action s = match risk_status s with
             | HIGH => Evacuation
             | MEDIUM => Warning
             | LOW => Monitoring
             end.
Proof.
  unfold action, risk_status.
  destruct (s >? 70); [reflexivity|]. destruct (s >? 40); reflexivity.
Qed.

(** C1. For every integer score [s], [classify s] is (High, Evacuation)
    exactly when [s > 70], (Medium, Warning) exactly when [40 < s <= 70] and
    (Low, Monitoring) exactly when [s <= 40]; the boundary scores 70, 71, 40
    and 41 classify as Medium, High, Low and Medium; and every integer,
    inside [0,100] or not, gets one of the three pairs. *)
Theorem classify_thresholds (s : Z) :
  (classify s = (HIGH, Evacuation) <-> s > 70) /\
  (classify s = (MEDIUM, Warning) <-> 40 < s <= 70) /\
  (classify s = (LOW, Monitoring) <-> s <= 40) /\
  classify 70 = (MEDIUM, Warning) /\
  classify 71 = (HIGH, Evacuation) /\
  classify 40 = (LOW, Monitoring) /\
  classify 41 = (MEDIUM, Warning) /\
  (classify s = (HIGH, Evacuation) \/
   classify s = (MEDIUM, Warning) \/
   classify s = (LOW, Monitoring)).
Proof.
  unfold classify. rewrite action_follows_status.
  destruct (risk_status_cases s) as [[H E] | [[H E] | [H E]]]; rewrite E;
    repeat split; intros; try discriminate; try lia; try reflexivity; auto.
Qed.

End ClassifierFacts.

(** ** Restricted-area detection *)

Module DetectorFacts.
Import Detector.

Lemma zone_in_In (z : Zone) (restricted : list Zone) :
  zone_in z restricted = true <-> In z restricted.
Proof.
  unfold zone_in. rewrite existsb_exists. split.
  - intros (y & Hy & E). apply String.eqb_eq in E. now subst.
  - intros H. exists z. split; [assumption | apply String.eqb_refl].
Qed.

Lemma filter_comm {A} (p q : A -> bool) (l : list A) :
  filter p (filter q l) = filter q (filter p l).
Proof.
  induction l as [|a l IH]; simpl; [reflexivity|].
  destruct (q a) eqn:Q, (p a) eqn:P; simpl; rewrite ?Q, ?P, IH; reflexivity.
Qed.

Lemma filter_drop_rejected (p : Zone -> bool) (z : Zone) (l : list Zone) :
  p z = false ->
  filter p (filter (fun z' => negb (String.eqb z' z)) l) = filter p l.
Proof.
  intros Pz. induction l as [|a l IH]; simpl; [reflexivity|].
  destruct (String.eqb_spec a z) as [->|N]; simpl.
  - now rewrite Pz.
  - now rewrite IH.
Qed.

Lemma first_seen_filter (p : Zone -> bool) (zs : list Zone) :
  first_seen (filter p zs) = filter p (first_seen zs).
Proof.
  induction zs as [|z zs IH]; simpl; [reflexivity|].
  destruct (p z) eqn:Pz; simpl; rewrite IH.
  - f_equal. apply filter_comm.
  - symmetry. now apply filter_drop_rejected.
Qed.

Lemma In_restricted_alerts (z : Zone) (worker_zones restricted : list Zone) :
  In z (restricted_alerts worker_zones restricted) <->
  In z worker_zones /\ In z restricted.
Proof.
  unfold restricted_alerts. rewrite filter_In, zone_in_In. tauto.
Qed.

Lemma count_occ_restricted_alerts (z : Zone) (worker_zones restricted : list Zone) :
  count_occ string_dec (restricted_alerts worker_zones restricted) z =
  if zone_in z restricted then count_occ string_dec worker_zones z else 0%nat.
Proof.
  unfold restricted_alerts.
  induction worker_zones as [|a l IH]; simpl.
  - now destruct (zone_in z restricted).
  - destruct (zone_in a restricted) eqn:Ra; simpl;
      destruct (string_dec a z) as [->|N]; rewrite IH; try rewrite Ra; reflexivity.
Qed.

(** C3 (as amended). [detect] keeps, in assignment order, the zone of every
    assignment whose zone is restricted.  Hence a zone is in the output
    exactly when it is restricted and some worker is assigned to it, and
    the output with repeated zones dropped is the list of those zones in
    order of first appearance; an empty assignment list gives the empty
    list, and the two examples of the contract evaluate as given. *)
Theorem detect_keeps_restricted
  (assignments : list WorkerAssignment) (restricted : list Zone) :
  detect assignments restricted =
    map snd (filter (fun wa => zone_in (snd wa) restricted) assignments) /\
  (forall z, In z (detect assignments restricted) <->
             (exists w, In (w, z) assignments) /\ In z restricted) /\
  first_seen (detect assignments restricted) = detect_spec assignments restricted /\
  detect [] restricted = [] /\
  detect [("w1", "Zone A")] ["Zone A"; "Zone C"] = ["Zone A"] /\
  detect [("w1", "Zone B")] ["Zone A"; "Zone C"] = [].
Proof.
  split; [|split; [|split; [|repeat split]]].
  - unfold detect, restricted_alerts.
    induction assignments as [|[w z] l IH]; simpl; [reflexivity|].
    destruct (zone_in z restricted); simpl; now rewrite IH.
  - intros z. unfold detect. rewrite In_restricted_alerts, in_map_iff. split.
    + intros [([w z'] & E & Hin) Hr]. simpl in E. subst z'. eauto.
    + intros [[w Hw] Hr]. split; [|assumption]. now exists (w, z).
  - apply first_seen_filter.
Qed.

(** C3 (as stated) fails: with two workers in the restricted "Zone A" the
    output names the zone twice, while the list of restricted zones that
    have a worker names it once. *)
Lemma detect_repeats_zone :
  detect [("w1", "Zone A"); ("w2", "Zone A")] ["Zone A"; "Zone C"]
    = ["Zone A"; "Zone A"] /\
  detect_spec [("w1", "Zone A"); ("w2", "Zone A")] ["Zone A"; "Zone C"]
    = ["Zone A"] /\
  detect [("w1", "Zone A"); ("w2", "Zone A")] ["Zone A"; "Zone C"]
    <> detect_spec [("w1", "Zone A"); ("w2", "Zone A")] ["Zone A"; "Zone C"].
Proof.
  repeat split; try reflexivity. vm_compute. discriminate.
Qed.

Lemma zone_in_in_dec (z : Zone) (restricted : list Zone) :
  zone_in z restricted = if in_dec string_dec z restricted then true else false.
Proof.
  destruct (in_dec string_dec z restricted) as [Hin|Hout].
  - now apply zone_in_In.
  - destruct (zone_in z restricted) eqn:E; [|reflexivity].
    apply zone_in_In in E. contradiction.
Qed.

(** C10. The output of [detect] has one entry per assignment whose zone
    belongs to the restricted set: its length is the number of those
    assignments, a restricted zone occupied by k workers occurs exactly k
    times in the output, and a zone that is not restricted never occurs. *)
Theorem detect_one_entry_per_assignment
  (assignments : list WorkerAssignment) (restricted : list Zone) :
  List.length (detect assignments restricted) =
    List.length
      (filter (fun wa => if in_dec string_dec (snd wa) restricted then true else false)
              assignments) /\
  (forall z, In z restricted ->
             count_occ string_dec (detect assignments restricted) z =
             count_occ string_dec (map snd assignments) z) /\
  (forall z, ~ In z restricted ->
             count_occ string_dec (detect assignments restricted) z = 0%nat).
Proof.
  split; [|split].
  - unfold detect, restricted_alerts.
    induction assignments as [|[w z] l IH]; simpl; [reflexivity|].
    rewrite zone_in_in_dec.
    destruct (in_dec string_dec z restricted); simpl; now rewrite IH.
  - intros z Hin. unfold detect. rewrite count_occ_restricted_alerts.
    apply zone_in_In in Hin. now rewrite Hin.
  - intros z Hout. unfold detect. rewrite count_occ_restricted_alerts.
    destruct (zone_in z restricted) eqn:E; [|reflexivity].
    apply zone_in_In in E. contradiction.
Qed.

Lemma detect_one_entry_per_assignment_witness :
  count_occ string_dec
    (detect [("w1", "Zone A"); ("w2", "Zone B"); ("w3", "Zone A")]
            ["Zone A"; "Zone C"]) "Zone A" = 2%nat /\
  count_occ string_dec
    (detect [("w1", "Zone A"); ("w2", "Zone B"); ("w3", "Zone A")]
            ["Zone A"; "Zone C"]) "Zone B" = 0%nat.
Proof.
  destruct (detect_one_entry_per_assignment
              [("w1", "Zone A"); ("w2", "Zone B"); ("w3", "Zone A")]
              ["Zone A"; "Zone C"]) as (_ & Hin & Hout).
  split.
  - rewrite (Hin "Zone A"); [reflexivity | simpl; tauto].
  - apply Hout. simpl. intros [H|[H|[]]]; discriminate H.
Defined.

End DetectorFacts.

(** ** Alert buttons *)

Module DispatcherFacts.
Import Dispatcher.

(** C4. For a ZoneIntrusion event [dispatch] answers Sent exactly when the
    payload is a non-empty list and Suppressed-NoIntrusion otherwise; for a
    ManualRequest event it answers Sent whatever the payload. *)
Theorem dispatch_outcomes (p : option (list Detector.Zone)) :
  (dispatch {| trigger := ZoneIntrusion; payload := p |} = Sent <->
     exists z zs, p = Some (z :: zs)) /\
  (dispatch {| trigger := ZoneIntrusion; payload := p |} = Suppressed_NoIntrusion <->
     ~ exists z zs, p = Some (z :: zs)) /\
  dispatch {| trigger := ManualRequest; payload := p |} = Sent /\
  dispatch {| trigger := ZoneIntrusion; payload := Some [] |} = Suppressed_NoIntrusion /\
  dispatch {| trigger := ZoneIntrusion; payload := Some ["Zone A"] |} = Sent.
Proof.
  assert (Q : forall q, truthy q = true <-> exists z zs, q = Some (z :: zs)).
  { intros [[|z zs]|]; simpl; split; try discriminate; eauto;
      intros (z' & zs' & E); discriminate. }
  unfold dispatch; simpl. specialize (Q p).
  destruct (truthy p).
  - split; [|split; [|repeat split]].
    + split; [intros _; now apply Q | reflexivity].
    + split; [discriminate | intros H; exfalso; apply H; now apply Q].
  - split; [|split; [|repeat split]].
    + split; [discriminate | intros H; apply Q in H; discriminate].
    + split; [intros _ H; apply Q in H; discriminate | reflexivity].
Qed.

End DispatcherFacts.

(** ** The session frame across ticks *)

Module SessionFacts.
Import Frame Session.

Lemma tick_state (i : TickInput) (ss : SessionState) :
  fst (tick i ss) = fst (data_source i ss).
Proof.
  unfold tick. destruct (data_source i ss) as [ss' [df|m|e]]; simpl;
    [destruct (current_risk df)|..]; reflexivity.
Qed.

(** What one tick does to the readings held: a simulated tick adds its
    reading at the end, any other tick leaves them alone. *)
Lemma window_tick (i : TickInput) (ss : SessionState) :
  window (fst (tick i ss)) =
  window ss ++ match mode i with
               | SimulatedLiveData => [new_data (draws i)]
               | _ => []
               end.
Proof.
  rewrite tick_state. unfold data_source.
  destruct (mode i).
  - destruct ss; reflexivity.
  - destruct (preloaded i); simpl; now rewrite app_nil_r.
  - destruct (uploaded i) as [[df|e]|]; simpl; now rewrite app_nil_r.
Qed.

Lemma window_run (inputs : list TickInput) (ss : SessionState) :
  window (run inputs ss) = window ss ++ map new_data (simulated_draws inputs).
Proof.
  revert ss. induction inputs as [|i rest IH]; intros ss; simpl.
  - now rewrite app_nil_r.
  - rewrite IH, window_tick. unfold simulated_draws. simpl.
    destruct (mode i); simpl; rewrite <- app_assoc; reflexivity.
Qed.

Lemma simulated_draws_simulated (ds : list Draws) :
  simulated_draws (map simulated ds) = ds.
Proof.
  unfold simulated_draws. induction ds as [|d ds IH]; simpl; [reflexivity|].
  now f_equal.
Qed.

Lemma snapshot_window (ss : SessionState) :
  snapshot ss = skipn (List.length (window ss) - 50) (window ss).
Proof. destruct ss; reflexivity. Qed.

(** The frame a simulated tick hands to the rest of the script is the
    snapshot of the session it leaves behind. *)
Lemma simulated_tick_shows_snapshot (d : Draws) (ss : SessionState) :
  exists df, snd (data_source (simulated d) ss) = Continue df /\
             rows df = snapshot (fst (data_source (simulated d) ss)).
Proof. unfold data_source; simpl. eexists; split; reflexivity. Qed.

(** C2 (as stated) fails: after 51 simulated ticks the session holds 51
    readings, the oldest among them. *)
Lemma window_grows_past_50 :
  ~ holds_at_most_50 /\
  let d k := {| now := "00:00:00"; vibration := 0; slope := 0;
                weather := "Sunny"; risk := Z.of_nat k |} in
  let ss := run (map simulated (map d (seq 0 51))) None in
  List.length (window ss) = 51%nat /\ In (new_data (d 0%nat)) (window ss).
Proof.
  split.
  - intros H.
    specialize (H (repeat {| now := "00:00:00"; vibration := 0; slope := 0;
                             weather := "Sunny"; risk := 0 |} 51)).
    rewrite window_run, simulated_draws_simulated in H.
    cbn [window app] in H. rewrite length_map, repeat_length in H. lia.
  - intros d ss. subst ss. rewrite window_run, simulated_draws_simulated.
    cbn [window app]. split.
    + now rewrite !length_map, length_seq.
    + left. reflexivity.
Qed.

(** C2 (as amended). The session keeps every appended reading (after n
    simulated ticks it holds all n, in order, nothing is evicted); the
    snapshot taken of it, the last 50 rows, never has more than 50 entries
    and keeps insertion order; after 51 appends the snapshot is the 50
    readings after the oldest one, so it ends with the newest and, when the
    oldest reading differs from the later ones, does not contain it. *)
Theorem snapshot_bounded_fifo (ds : list Draws) :
  let ss := run (map simulated ds) None in
  window ss = map new_data ds /\
  snapshot ss = skipn (List.length ds - 50) (map new_data ds) /\
  (List.length (snapshot ss) <= 50)%nat /\
  forall oldest rest,
    ds = oldest :: rest -> List.length rest = 50%nat ->
    snapshot ss = map new_data rest /\
    last (snapshot ss) [] = new_data (last rest oldest) /\
    (~ In (new_data oldest) (map new_data rest) ->
     ~ In (new_data oldest) (snapshot ss)).
Proof.
  intros ss.
  assert (W : window ss = map new_data ds).
  { subst ss. now rewrite window_run, simulated_draws_simulated. }
  assert (S : snapshot ss = skipn (List.length ds - 50) (map new_data ds)).
  { now rewrite snapshot_window, W, length_map. }
  split; [exact W|]. split; [exact S|]. split.
  - rewrite S, length_skipn, length_map. lia.
  - intros oldest rest -> L.
    assert (S' : snapshot ss = map new_data rest).
    { rewrite S. simpl List.length. rewrite L. reflexivity. }
    rewrite S'. split; [reflexivity|]. split; [|tauto].
    destruct rest as [|r rest]; [discriminate|].
    clear. revert r. induction rest as [|r' rest IH]; intros r; [reflexivity|].
    change (last (map new_data (r' :: rest)) [] = new_data (last (r' :: rest) oldest)).
    rewrite IH. destruct rest; reflexivity.
Qed.

Lemma snapshot_bounded_fifo_witness :
  let d k := {| now := "00:00:00"; vibration := 0; slope := 0;
                weather := "Sunny"; risk := Z.of_nat k |} in
  snapshot (run (map simulated (map d (seq 0 51))) None)
    = map new_data (map d (seq 1 50)) /\
  ~ In (new_data (d 0%nat))
       (snapshot (run (map simulated (map d (seq 0 51))) None)).
Proof.
  intros d.
  destruct (snapshot_bounded_fifo (map d (seq 0 51))) as (_ & _ & _ & H).
  destruct (H (d 0%nat) (map d (seq 1 50)) eq_refl eq_refl) as (E & _ & N).
  split; [exact E|]. apply N.
  rewrite !in_map_iff. intros (x & Hx & Hin).
  apply in_map_iff in Hin. destruct Hin as (k & <- & Hk).
  apply in_seq in Hk. injection Hx. lia.
Defined.

(** C5 (as stated) fails: switching from the simulated source to the
    preloaded file leaves the reading in the session, and switching back
    appends to it. *)
Lemma switch_keeps_window :
  ~ resets_on_switch /\
  let d1 := {| now := "00:00:00"; vibration := 0; slope := 0;
               weather := "Sunny"; risk := 10 |} in
  let d2 := {| now := "00:01:00"; vibration := 0; slope := 0;
               weather := "Rainy"; risk := 20 |} in
  let csv := Ret (empty_frame session_columns) in
  window (run [simulated d1; preloaded_csv csv d1] None) = [new_data d1] /\
  window (run [simulated d1; preloaded_csv csv d1; simulated d2] None)
    = [new_data d1; new_data d2].
Proof.
  split; [|split; reflexivity].
  intros H.
  specialize (H (simulated {| now := "00:00:00"; vibration := 0; slope := 0;
                              weather := "Sunny"; risk := 10 |})
                (preloaded_csv (Ret (empty_frame session_columns))
                   {| now := "00:00:00"; vibration := 0; slope := 0;
                      weather := "Sunny"; risk := 10 |})
                None).
  simpl in H. discriminate H. discriminate.
Qed.

(** C5 (as amended). Switching the data source never empties the session:
    a tick under either CSV source leaves the readings held unchanged and a
    simulated tick appends its reading to them, so after any sequence of
    ticks and switches the session holds what it held before followed by
    the readings of all simulated ticks, in order. *)
Theorem switch_preserves_window (inputs : list TickInput) (ss : SessionState) :
  (forall i, window (fst (tick i ss)) =
             window ss ++ match mode i with
                          | SimulatedLiveData => [new_data (draws i)]
                          | _ => []
                          end) /\
  window (run inputs ss) = window ss ++ map new_data (simulated_draws inputs).
Proof.
  split; [intros i; apply window_tick | apply window_run].
Qed.

End SessionFacts.

(** ** Loading a dataset *)

Module LoadFacts.
Import Frame Session.

(** C9 (as stated) fails: an uploaded file that parses but has no "Risk"
    column is accepted by the loader, and the tick ends in an uncaught
    [KeyError] instead of a message and a stop. *)
Lemma upload_without_risk_column_raises :
  ~ halts_on_bad_upload /\
  let d := {| now := "00:00:00"; vibration := 0; slope := 0;
              weather := "Sunny"; risk := 0 |} in
  let df := {| columns := ["Timestamp"; "Vibration"];
               rows := [[("Timestamp", Str "10:00:00"); ("Vibration", Float (1 # 2))]] |} in
  tick (upload_csv (Some (Ret df)) d) None = (None, Uncaught (KeyError "Risk")).
Proof.
  split; [|reflexivity].
  intros H.
  destruct (H (Some (Ret {| columns := ["Timestamp"; "Vibration"];
                            rows := [[("Timestamp", Str "10:00:00");
                                      ("Vibration", Float (1 # 2))]] |}))
              {| now := "00:00:00"; vibration := 0; slope := 0;
                 weather := "Sunny"; risk := 0 |}
              None eq_refl) as [m Hm].
  discriminate Hm.
Qed.

(** C9 (as amended). With "Upload CSV" selected and no file supplied the
    tick halts with the warning "Please upload a CSV to continue."; with
    "Preloaded CSV" selected any failure to read the file halts the tick
    with the error message.  An uploaded file that parses is accepted
    whatever its columns, there is no SourceUnavailable check: when the
    "Risk" column is missing the tick ends in an uncaught [KeyError] at the
    current-risk lookup. *)
Theorem load_outcomes (d : Draws) (ss : SessionState) :
  tick (upload_csv None d) ss
    = (ss, Stop (st_warning "Please upload a CSV to continue.")) /\
  (forall e, tick (preloaded_csv (Raise e) d) ss
    = (ss, Stop (st_error "Preloaded file 'mine_sensor_data.csv' not found."))) /\
  (forall df, data_source (upload_csv (Some (Ret df)) d) ss = (ss, Continue df)) /\
  (forall df, existsb (String.eqb "Risk") (columns df) = false ->
              tick (upload_csv (Some (Ret df)) d) ss = (ss, Uncaught (KeyError "Risk"))).
Proof.
  split; [reflexivity|]. split; [reflexivity|]. split; [reflexivity|].
  intros df H. unfold tick, data_source. cbn [upload_csv mode uploaded].
  unfold current_risk. now rewrite H.
Qed.

Lemma load_outcomes_witness :
  let d := {| now := "00:00:00"; vibration := 0; slope := 0;
              weather := "Sunny"; risk := 0 |} in
  tick (upload_csv (Some (Ret (empty_frame ["Timestamp"; "Slope"]))) d) None
    = (None, Uncaught (KeyError "Risk")).
Proof.
  intros d.
  destruct (load_outcomes d None) as (_ & _ & _ & H).
  apply (H (empty_frame ["Timestamp"; "Slope"])). reflexivity.
Defined.

End LoadFacts.

(** ** The simulated risk score *)

Module SyntheticFacts.
Import Session Synthetic.

Lemma count_occ_shifted_seq (low v : Z) (a n : nat) :
  count_occ Z.eq_dec (map (fun k => low + Z.of_nat k) (seq a n)) v =
  if (low + Z.of_nat a <=? v) && (v <? low + Z.of_nat a + Z.of_nat n)
  then 1%nat else 0%nat.
Proof.
  revert a. induction n as [|n IH]; intros a.
  - simpl. destruct (Z.leb_spec (low + Z.of_nat a) v), (Z.ltb_spec v (low + Z.of_nat a + 0));
      simpl; try reflexivity; lia.
  - cbn [seq map count_occ]. rewrite IH.
    destruct (Z.eq_dec (low + Z.of_nat a) v) as [E|N];
      destruct (Z.leb_spec (low + Z.of_nat (S a)) v),
               (Z.ltb_spec v (low + Z.of_nat (S a) + Z.of_nat n)),
               (Z.leb_spec (low + Z.of_nat a) v),
               (Z.ltb_spec v (low + Z.of_nat a + Z.of_nat (S n)));
      simpl; try reflexivity; lia.
Qed.

Lemma count_occ_randint (low high v : Z) :
  count_occ Z.eq_dec (randint low high) v =
  if (low <=? v) && (v <? high) then 1%nat else 0%nat.
Proof.
  unfold randint. rewrite count_occ_shifted_seq. simpl Z.of_nat.
  destruct (Z.leb_spec (low + 0) v), (Z.leb_spec low v); try lia;
    simpl; try reflexivity.
  destruct (Z.ltb_spec v (low + 0 + Z.of_nat (Z.to_nat (high - low)))),
           (Z.ltb_spec v high); try reflexivity; lia.
Qed.

Lemma In_randint (low high v : Z) :
  In v (randint low high) <-> low <= v < high.
Proof.
  rewrite (count_occ_In Z.eq_dec), count_occ_randint.
  destruct (Z.leb_spec low v), (Z.ltb_spec v high); simpl; lia.
Qed.

(** C8 (as stated) fails: 100 is in the contract's range but is never
    drawn. *)
Lemma risk_100_never_drawn :
  ~ uniform_on_0_100 /\
  in_percent_range 100 = true /\
  ~ In 100 risk_outcomes /\
  (probability risk_outcomes 100 == 0)%Q.
Proof.
  assert (N : ~ In 100 risk_outcomes).
  { unfold risk_outcomes. rewrite In_randint. lia. }
  split; [|split; [reflexivity | split; [exact N | reflexivity]]].
  intros H. destruct (H 100 eq_refl) as [Hin _]. now apply N.
Qed.

(** C8 (as amended). The risk score of a simulated reading is drawn
    uniformly from the integers 0 to 99: an integer can be drawn exactly
    when it lies in [0,99], each of those has probability 1/100 and every
    other integer, 100 included, has probability 0; so the "Risk" cell of
    every simulated reading is an integer between 0 and 99. *)
Theorem risk_uniform_0_99 (v : Z) :
  (In v risk_outcomes <-> 0 <= v <= 99) /\
  (probability risk_outcomes v ==
     if (0 <=? v) && (v <=? 99) then 1 # 100 else 0)%Q /\
  (forall d, synthetic d ->
             Frame.get "Risk" (new_data d) = Frame.Int (risk d) /\ 0 <= risk d <= 99).
Proof.
  split; [|split].
  - unfold risk_outcomes. rewrite In_randint. lia.
  - unfold probability, risk_outcomes. rewrite count_occ_randint.
    destruct (Z.leb_spec 0 v), (Z.ltb_spec v 100), (Z.leb_spec v 99);
      try lia; reflexivity.
  - intros d [Hr _]. split; [reflexivity|].
    unfold risk_outcomes in Hr. rewrite In_randint in Hr. lia.
Qed.

Lemma risk_uniform_0_99_witness :
  0 <= risk {| now := "12:00:00"; vibration := 1 # 2; slope := 45;
               weather := "Windy"; risk := 99 |} <= 99.
Proof.
  destruct (risk_uniform_0_99 0) as (_ & _ & H).
  refine (proj2 (H {| now := "12:00:00"; vibration := 1 # 2; slope := 45;
                      weather := "Windy"; risk := 99 |} _)).
  unfold synthetic, risk_outcomes. cbn [risk weather]. split.
  - apply In_randint. lia.
  - unfold weather_outcomes. simpl. tauto.
Defined.

End SyntheticFacts.

(** ** Percentile bounds *)

Module SummarizerFacts.
Import Summarizer.
Local Open Scope Q_scope.

(** C6 (as stated) fails: on an empty series the two quantiles and the two
    extrema are computed without any error; the result is a tuple of four
    [nan]. *)
Lemma band_empty_returns_nan :
  trend_bounds [] = Ret (nan, nan, nan, nan) /\
  ~ exists e, trend_bounds [] = Raise e.
Proof.
  split; [reflexivity|]. intros [e H]. discriminate H.
Qed.

(** C6 (as amended). [band] on a sequence of zero values raises no
    empty-sequence error: with both percentiles in [0, 1] it returns the
    tuple (nan, nan, nan, nan), and the only error it can raise is the
    [ValueError] for a percentile outside [0, 1]. *)
Theorem band_of_empty_series (low_q high_q : Q) :
  band [] low_q high_q =
  if valid_percentile low_q && valid_percentile high_q
  then Ret (nan, nan, nan, nan)
  else Raise ValueError.
Proof.
  unfold band, quantile.
  destruct (valid_percentile low_q); [|reflexivity].
  destruct (valid_percentile high_q); reflexivity.
Qed.

End SummarizerFacts.

(** ** Reachable sessions and the simulated tick *)

Module ReachFacts.
Import Frame Session Reach Metrics.

Lemma skipn_snoc {A} (k : nat) (w : list A) (r : A) :
  (k <= List.length w)%nat -> skipn k (w ++ [r]) = skipn k w ++ [r].
Proof.
  intros H. rewrite skipn_app.
  replace (k - List.length w)%nat with 0%nat by lia. reflexivity.
Qed.

Lemma tl_skipn {A} (k : nat) (l : list A) : tl (skipn k l) = skipn (S k) l.
Proof.
  revert l. induction k as [|k IH]; intros [|a l]; try reflexivity.
  simpl skipn at 1. rewrite IH. reflexivity.
Qed.

Lemma appended_rows (ss : SessionState) (d : Draws) :
  rows (appended ss d) = window ss ++ [new_data d].
Proof. destruct ss; reflexivity. Qed.

Lemma appended_columns (ss : SessionState) (d : Draws) :
  well_formed ss -> columns (appended ss d) = session_columns.
Proof.
  destruct ss as [df|]; simpl; [|reflexivity].
  intros [C _]. rewrite C. reflexivity.
Qed.

Lemma well_formed_appended (ss : SessionState) (d : Draws) :
  well_formed ss -> well_formed (Some (appended ss d)).
Proof.
  intros W. split; [now apply appended_columns|].
  rewrite appended_rows. apply Forall_app. split.
  - destruct ss as [df|]; [apply W | constructor].
  - constructor; [now exists d | constructor].
Qed.

Lemma tick_simulated_state (i : TickInput) (ss : SessionState) :
  fst (tick i ss) = match mode i with
                    | SimulatedLiveData => Some (appended ss (draws i))
                    | _ => ss
                    end.
Proof.
  unfold tick, data_source. destruct (mode i).
  - match goal with |- context [current_risk ?f] => destruct (current_risk f) end;
      reflexivity.
  - destruct (preloaded i) as [df|e]; [destruct (current_risk df)|]; reflexivity.
  - destruct (uploaded i) as [[df|e]|]; [destruct (current_risk df)|..]; reflexivity.
Qed.

Lemma well_formed_tick (i : TickInput) (ss : SessionState) :
  well_formed ss -> well_formed (fst (tick i ss)).
Proof.
  intros W. rewrite tick_simulated_state.
  destruct (mode i); [now apply well_formed_appended | exact W | exact W].
Qed.

Lemma well_formed_run (inputs : list TickInput) (ss : SessionState) :
  well_formed ss -> well_formed (run inputs ss).
Proof.
  revert ss. induction inputs as [|i rest IH]; intros ss W; simpl; [exact W|].
  apply IH. now apply well_formed_tick.
Qed.

(** The last row of the frame shown after a simulated tick is the new
    reading. *)
Lemma shown_rows_end (ss : SessionState) (d : Draws) :
  exists earlier,
    rows (tail 50 (appended ss d)) = earlier ++ [new_data d].
Proof.
  unfold tail. cbn [rows]. rewrite appended_rows.
  exists (skipn (List.length (window ss ++ [new_data d]) - 50) (window ss)).
  apply skipn_snoc. rewrite length_app. simpl. lia.
Qed.

Lemma column_last_shown (key : string) (ss : SessionState) (d : Draws) :
  well_formed ss -> In key session_columns ->
  column_last key (tail 50 (appended ss d)) = Ret (get key (new_data d)).
Proof.
  intros W K. unfold column_last.
  destruct (shown_rows_end ss d) as [earlier E]. rewrite E.
  change (columns (tail 50 (appended ss d))) with (columns (appended ss d)).
  rewrite (appended_columns ss d W), rev_app_distr. simpl rev. cbn [app].
  replace (existsb (String.eqb key) session_columns) with true; [reflexivity|].
  symmetry. apply existsb_exists. exists key. split; [exact K | apply String.eqb_refl].
Qed.

Lemma current_risk_column_last (df : DataFrame) :
  current_risk df = column_last "Risk" df.
Proof. reflexivity. Qed.

Lemma risk_status_cell_int (n : Z) :
  risk_status_cell (Int n) = Some (Classifier.risk_status n).
Proof.
  unfold risk_status_cell, Classifier.risk_status, cell_gt.
  destruct (n >? 70); [reflexivity|]. destruct (n >? 40); reflexivity.
Qed.

(** X1. Whatever ticks came before in a session, a tick in simulated mode
    neither stops nor raises: it goes on with the risk of the reading it
    has just drawn, and the session it leaves keeps the five session
    columns with every row a simulated reading. *)
Theorem simulated_tick_never_fails (inputs : list TickInput) (d : Draws) :
  exists held,
    tick (simulated d) (run inputs None) = (Some held, Continue (Int (risk d))) /\
    well_formed (Some held) /\
    well_formed (run inputs None).
Proof.
  assert (W : well_formed (run inputs None)) by (apply well_formed_run; exact I).
  exists (appended (run inputs None) d). split; [|split].
  - unfold tick, data_source. cbn [simulated mode draws].
    fold (appended (run inputs None) d).
    rewrite current_risk_column_last, column_last_shown; [reflexivity | exact W |].
    simpl. tauto.
  - now apply well_formed_appended.
  - exact W.
Qed.

(** X2. In simulated mode the metrics row always describes the newest
    reading: "Current Risk" is the status of the risk just drawn, "Last
    Update" its timestamp and "Weather" its weather, however many readings
    the session holds. *)
Theorem simulated_metrics_show_newest (inputs : list TickInput) (d : Draws) :
  exists df,
    snd (data_source (simulated d) (run inputs None)) = Continue df /\
    metrics df = Value (Classifier.risk_status (risk d), Str (now d), Str (weather d)).
Proof.
  assert (W : well_formed (run inputs None)) by (apply well_formed_run; exact I).
  exists (tail 50 (appended (run inputs None) d)). split; [reflexivity|].
  unfold metrics.
  rewrite !column_last_shown by (try exact W; simpl; tauto).
  cbn [get new_data String.eqb Ascii.eqb Bool.eqb].
  rewrite risk_status_cell_int. reflexivity.
Qed.

(** X3. The frame shown in simulated mode slides: while the session holds
    fewer than 50 readings a tick adds the new reading to what was shown;
    from 50 on it drops the oldest shown reading and adds the new one at
    the end.  The frame shown has min(n, 50) rows when n readings are
    held. *)
Theorem snapshot_slides (ss : SessionState) (d : Draws) :
  snapshot (fst (tick (simulated d) ss)) =
    (if (List.length (window ss) <? 50)%nat
     then snapshot ss
     else tl (snapshot ss)) ++ [new_data d] /\
  List.length (snapshot ss) = Nat.min (List.length (window ss)) 50.
Proof.
  split.
  - rewrite tick_simulated_state. cbn [simulated mode draws].
    rewrite !SessionFacts.snapshot_window. cbn [window].
    rewrite appended_rows, length_app. cbn [List.length].
    destruct (Nat.ltb_spec (List.length (window ss)) 50) as [L|L].
    + replace (List.length (window ss) + 1 - 50)%nat with 0%nat by lia.
      replace (List.length (window ss) - 50)%nat with 0%nat by lia.
      reflexivity.
    + rewrite tl_skipn.
      replace (List.length (window ss) + 1 - 50)%nat
        with (S (List.length (window ss) - 50)) by lia.
      apply skipn_snoc. lia.
  - rewrite SessionFacts.snapshot_window, length_skipn. lia.
Qed.

(** X4. Under either CSV source a file that loads is handed on whole and
    the session is left as it was; when it has the "Risk" column but no
    data row the tick ends in an uncaught [IndexError] at the current-risk
    lookup, and when it lacks the "Risk" column in an uncaught
    [KeyError]. *)
Theorem csv_tick_outcomes (df : DataFrame) (d : Draws) (ss : SessionState) :
  data_source (preloaded_csv (Ret df) d) ss = (ss, Continue df) /\
  data_source (upload_csv (Some (Ret df)) d) ss = (ss, Continue df) /\
  tick (preloaded_csv (Ret df) d) ss = tick (upload_csv (Some (Ret df)) d) ss /\
  tick (preloaded_csv (Ret df) d) ss =
    (ss, if existsb (String.eqb "Risk") (columns df)
         then match rows df with
              | [] => Uncaught IndexError
              | _ :: _ => Continue (get "Risk" (last (rows df) []))
              end
         else Uncaught (KeyError "Risk")).
Proof.
  split; [reflexivity|]. split; [reflexivity|]. split; [reflexivity|].
  unfold tick, data_source. cbn [preloaded_csv mode preloaded].
  unfold current_risk.
  destruct (existsb (String.eqb "Risk") (columns df)); [|reflexivity].
  destruct (rows df) as [|r rs] eqn:E; [reflexivity|].
  destruct (exists_last (l := r :: rs)) as (front & z & Ez); [discriminate|].
  rewrite Ez, rev_app_distr, last_last. reflexivity.
Qed.

End ReachFacts.

(** ** Metrics row and alerts log *)

Module MetricsFacts.
Import Frame Classifier Metrics.

Lemma with_action_rows (rs : list Row) (l : list (Row * Action)) :
  with_action rs = Some l ->
  map fst l = rs /\
  Forall (fun ra => action_cell (get "Risk" (fst ra)) = Some (snd ra)) l.
Proof.
  revert l. induction rs as [|r rs IH]; intros l; simpl.
  - intros [= <-]. split; constructor.
  - destruct (action_cell (get "Risk" r)) as [a|] eqn:A; [|discriminate].
    destruct (with_action rs) as [l'|]; [|discriminate].
    intros [= <-]. destruct (IH l' eq_refl) as [M F]. split.
    + simpl. now rewrite M.
    + constructor; [exact A | exact F].
Qed.

Lemma action_cell_fails (c : Cell) :
  action_cell c = None <-> exists s, c = Str s.
Proof.
  destruct c as [s|n|x|]; simpl; split; try discriminate; eauto;
    intros [s' E]; discriminate.
Qed.

Lemma with_action_cons (r : Row) (rs : list Row) :
  with_action (r :: rs) = None <->
  action_cell (get "Risk" r) = None \/ with_action rs = None.
Proof.
  simpl. destruct (action_cell (get "Risk" r)), (with_action rs);
    split; try discriminate; auto; intros [H|H]; discriminate.
Qed.

Lemma with_action_fails (rs : list Row) :
  with_action rs = None <-> exists r s, In r rs /\ get "Risk" r = Str s.
Proof.
  induction rs as [|r rs IH].
  - simpl. split; [discriminate | intros (r & s & [] & _)].
  - rewrite with_action_cons, action_cell_fails, IH. split.
    + intros [[s E]|(r' & s & Hin & E)]; [exists r, s | exists r', s]; simpl; auto.
    + intros (r' & s & [<-|Hin] & E); [left | right]; eauto.
Qed.

Lemma action_cell_of_status (c : Cell) :
  action_cell c = option_map action_of (risk_status_cell c).
Proof.
  unfold action_cell, risk_status_cell.
  destruct c as [s|n|x|]; simpl; try reflexivity.
  - destruct (n >? 70); [reflexivity|]. destruct (n >? 40); reflexivity.
  - destruct (Qle_bool x (inject_Z 70)); simpl; [|reflexivity].
    destruct (Qle_bool x (inject_Z 40)); reflexivity.
Qed.

(** X5. The status label of line 162 and the "Action" entry of lines
    193-194 agree on every cell: the entry is the action of the status
    (Evacuation with HIGH, Warning with MEDIUM, Monitoring with LOW), and
    one raises exactly when the other does.  On an integer both follow the
    thresholds 70 and 40; a missing value is shown as LOW with Monitoring;
    a string raises. *)
Theorem status_and_action_agree (c : Cell) :
  action_cell c = option_map action_of (risk_status_cell c) /\
  (forall n, c = Int n -> risk_status_cell c = Some (risk_status n) /\
                          action_cell c = Some (action n)) /\
  (c = NaN -> risk_status_cell c = Some LOW /\ action_cell c = Some Monitoring) /\
  (forall s, c = Str s -> risk_status_cell c = None /\ action_cell c = None).
Proof.
  split; [|split; [|split]].
  - apply action_cell_of_status.
  - intros n ->. unfold action_cell, risk_status_cell, risk_status, action, cell_gt.
    destruct (n >? 70); [split; reflexivity|]. destruct (n >? 40); split; reflexivity.
  - intros ->. split; reflexivity.
  - intros s ->. split; reflexivity.
Qed.

Lemma status_and_action_agree_witness :
  risk_status_cell (Int 70) = Some MEDIUM /\ action_cell (Int 70) = Some Warning.
Proof.
  destruct (status_and_action_agree (Int 70)) as (_ & H & _).
  exact (H 70 eq_refl).
Defined.

(** X6. On a frame with a "Risk" column the alerts log is the last five
    rows of the frame (all of them when there are fewer), in order, each
    with the "Action" entry of its own risk; building it raises a
    [TypeError] exactly when one of those rows has a string as risk. *)
Theorem alerts_log_rows (df : DataFrame) :
  existsb (String.eqb "Risk") (columns df) = true ->
  (alerts df = TypeError <->
     exists r s, In r (rows (tail 5 df)) /\ get "Risk" r = Str s) /\
  (forall l, alerts df = Value l ->
     map fst l = skipn (List.length (rows df) - 5) (rows df) /\
     List.length l = Nat.min (List.length (rows df)) 5 /\
     Forall (fun ra => action_cell (get "Risk" (fst ra)) = Some (snd ra)) l) /\
  (alerts df = TypeError \/ exists l, alerts df = Value l).
Proof.
  intros C. unfold alerts. rewrite C.
  destruct (with_action (rows (tail 5 df))) as [l|] eqn:W.
  - split; [|split].
    + split; [discriminate|]. intros H. apply with_action_fails in H. congruence.
    + intros l' [= <-]. destruct (with_action_rows _ _ W) as [M F].
      split; [exact M|]. split; [|exact F].
      rewrite <- (length_map fst), M. cbn [tail rows].
      rewrite length_skipn. lia.
    + right. now exists l.
  - split; [|split].
    + split; [intros _; now apply with_action_fails | reflexivity].
    + intros l' [=].
    + now left.
Qed.

Lemma alerts_log_rows_witness :
  let r n := [("Timestamp", Str "10:00:00"); ("Risk", Int n)] in
  let df := {| columns := ["Timestamp"; "Risk"];
               rows := [r 10; r 20; r 30; r 41; r 50; r 71] |} in
  let l := [(r 20, Monitoring); (r 30, Monitoring); (r 41, Warning);
            (r 50, Warning); (r 71, Evacuation)] in
  alerts df = Value l /\
  map fst l = [r 20; r 30; r 41; r 50; r 71] /\
  List.length l = 5%nat.
Proof.
  intros r df l.
  destruct (alerts_log_rows df eq_refl) as (_ & A & _).
  destruct (A l eq_refl) as (M & L & _).
  split; [reflexivity|]. split; [exact M | exact L].
Defined.

Lemma column_last_rows (key : string) (df : DataFrame) (c : Cell) :
  column_last key df = Ret c ->
  exists front r, rows df = front ++ [r] /\ get key r = c.
Proof.
  unfold column_last.
  destruct (existsb (String.eqb key) (columns df)); [|discriminate].
  destruct (rev (rows df)) as [|r rs] eqn:E; [discriminate|].
  intros [= <-]. exists (rev rs), r. split; [|reflexivity].
  rewrite <- (rev_involutive (rows df)), E. reflexivity.
Qed.

Lemma with_action_app (front : list Row) (r : Row) (l : list (Row * Action)) :
  with_action (front ++ [r]) = Some l ->
  exists l' a, l = l' ++ [(r, a)] /\ action_cell (get "Risk" r) = Some a.
Proof.
  revert l. induction front as [|f front IH]; intros l; simpl.
  - destruct (action_cell (get "Risk" r)) as [a|]; [|discriminate].
    intros [= <-]. now exists [], a.
  - destruct (action_cell (get "Risk" f)) as [af|]; [|discriminate].
    destruct (with_action (front ++ [r])) as [l0|]; [|discriminate].
    intros [= <-]. destruct (IH l0 eq_refl) as (l' & act & -> & Hact).
    now exists ((f, af) :: l'), act.
Qed.

(** X7. Whenever the metrics row and the alerts log are both built from a
    frame, the log is not empty and its last entry is the frame's last row
    with the action that goes with the status shown as "Current Risk". *)
Theorem newest_alert_matches_status
  (df : DataFrame) (t : SeverityTier) (ts w : Cell) (l : list (Row * Action)) :
  metrics df = Value (t, ts, w) ->
  alerts df = Value l ->
  exists earlier r,
    l = earlier ++ [(r, action_of t)] /\ last (rows df) [] = r.
Proof.
  unfold metrics, alerts. intros M A.
  destruct (column_last "Risk" df) as [c|e] eqn:R; [|discriminate].
  destruct (column_last_rows _ _ _ R) as (front & r & E & G).
  destruct (risk_status_cell c) as [t'|] eqn:S; [|discriminate].
  destruct (column_last "Timestamp" df) as [ts'|]; [|discriminate].
  destruct (column_last "Weather" df) as [w'|]; [|discriminate].
  injection M as -> _ _.
  destruct (existsb (String.eqb "Risk") (columns df)); [|discriminate].
  destruct (with_action (rows (tail 5 df))) as [l0|] eqn:W; [|discriminate].
  injection A as ->.
  cbn [tail rows] in W. rewrite E in W.
  rewrite ReachFacts.skipn_snoc in W by (rewrite length_app; simpl; lia).
  destruct (with_action_app _ _ _ W) as (l' & act & -> & Ha).
  exists l', r. split; [|rewrite E; apply last_last].
  do 3 f_equal. rewrite G in Ha.
  rewrite action_cell_of_status, S in Ha. simpl in Ha. congruence.
Qed.

Lemma newest_alert_matches_status_witness :
  let r n := [("Timestamp", Str "10:00:00"); ("Weather", Str "Rainy"); ("Risk", Int n)] in
  let df := {| columns := ["Timestamp"; "Weather"; "Risk"]; rows := [r 10; r 71] |} in
  exists earlier row,
    [(r 10, Monitoring); (r 71, Evacuation)] = earlier ++ [(row, action_of HIGH)] /\
    last (rows df) [] = row.
Proof.
  intros r df.
  apply (newest_alert_matches_status df HIGH (Str "10:00:00") (Str "Rainy")); reflexivity.
Defined.

End MetricsFacts.

(** ** Notice and charts *)

Module NoticeFacts.
Import Detector Dispatcher Notice.

(** X8. In one run of the script the restricted-area notice and the
    "Alert Workers" button agree: the button reports the alert as sent
    exactly when the warning notice is shown, which is exactly when some
    worker's zone is restricted; otherwise the notice is the "no workers"
    information and the button reports nothing to alert.  The warning names
    at most as many zones as there are workers. *)
Theorem notice_and_button_agree (worker_zones restricted : list Zone) :
  let found := restricted_alerts worker_zones restricted in
  (dispatch (zone_button found) = Sent <->
     exists zone, In zone worker_zones /\ In zone restricted) /\
  (dispatch (zone_button found) = Sent <->
     banner found = st_warning_workers_in (joined found)) /\
  (dispatch (zone_button found) = Suppressed_NoIntrusion <->
     banner found = st_info_no_workers) /\
  (List.length found <= List.length worker_zones)%nat.
Proof.
  intros found.
  assert (E : found = [] \/ exists z zs, found = z :: zs).
  { destruct found; [now left | right; eauto]. }
  assert (M : forall z, In z found <-> In z worker_zones /\ In z restricted).
  { intros z. apply DetectorFacts.In_restricted_alerts. }
  split; [|split; [|split]].
  - destruct E as [E|(z & zs & E)]; rewrite E in *; simpl.
    + split; [discriminate|]. intros (z & H). apply M in H. destruct H.
    + split; [intros _|reflexivity]. exists z. apply M. now left.
  - destruct E as [E|(z & zs & E)]; rewrite E; simpl;
      split; try discriminate; reflexivity.
  - destruct E as [E|(z & zs & E)]; rewrite E; simpl;
      split; try discriminate; reflexivity.
  - apply filter_length_le.
Qed.

End NoticeFacts.


Module ChartsFacts.
Import Charts.

Lemma str_injective (n m : nat) : str n = str m -> n = m.
Proof.
  unfold str. intros H.
  apply (f_equal NilEmpty.uint_of_string) in H.
  rewrite !NilEmpty.usu in H. injection H as H.
  apply (f_equal Nat.of_uint) in H.
  now rewrite !DecimalNat.Unsigned.of_to in H.
Qed.

Lemma worker_labels_NoDup (num_workers : nat) : NoDup (worker_labels num_workers).
Proof.
  unfold worker_labels. apply Injective_map_NoDup; [|apply seq_NoDup].
  intros i j H. simpl in H. injection H as H. apply str_injective in H. lia.
Qed.

(** X12. The worker map has one label per worker: for any number of
    workers the labels are "Worker 1", "Worker 2", ... in order, as many as
    there are workers, and no two workers share a label. *)
Theorem worker_labels_distinct (num_workers : nat) :
  List.length (worker_labels num_workers) = num_workers /\
  NoDup (worker_labels num_workers) /\
  (forall k, (k < num_workers)%nat ->
             nth k (worker_labels num_workers) ""%string
             = ("Worker " ++ str (k + 1))%string) /\
  worker_labels 10 =
    ["Worker 1"; "Worker 2"; "Worker 3"; "Worker 4"; "Worker 5";
     "Worker 6"; "Worker 7"; "Worker 8"; "Worker 9"; "Worker 10"]%string.
Proof.
  split; [unfold worker_labels; now rewrite length_map, length_seq|].
  split; [apply worker_labels_NoDup|].
  split; [|reflexivity].
  intros k Hk. unfold worker_labels.
  rewrite (nth_indep _ ""%string (("Worker " ++ str (0 + 1))%string))
    by (now rewrite length_map, length_seq).
  rewrite (map_nth (fun i => ("Worker " ++ str (i + 1))%string)).
  now rewrite seq_nth.
Qed.

Lemma worker_labels_distinct_witness :
  nth 9 (worker_labels 10) ""%string = "Worker 10"%string.
Proof.
  destruct (worker_labels_distinct 10) as (_ & _ & H & _).
  assert (K : (9 < 10)%nat) by lia.
  exact (H 9%nat K).
Defined.

(** X13. The forecast chart has six bars labelled "1h" to "6h", bar k
    showing the k-th drawn value, and every value shown is an integer from
    20 to 94: the forecast never goes below 20 and never reaches 95. *)
Theorem forecast_bars (forecast : nat -> Z) :
  (forall k, (k < 6)%nat -> In (forecast k) forecast_outcomes) ->
  map fst (df_forecast forecast) = ["1h"; "2h"; "3h"; "4h"; "5h"; "6h"]%string /\
  map snd (df_forecast forecast) = map forecast (seq 0 6) /\
  Forall (fun bar => (20 <= snd bar <= 94)%Z) (df_forecast forecast).
Proof.
  intros H. split; [reflexivity|]. split; [reflexivity|].
  apply Forall_forall. intros [h v] Hin. cbn [snd].
  apply in_combine_r in Hin. apply in_map_iff in Hin.
  destruct Hin as (k & <- & Hk). apply in_seq in Hk.
  assert (K : (k < 6)%nat) by lia.
  specialize (H k K). unfold forecast_outcomes in H.
  apply SyntheticFacts.In_randint in H. lia.
Qed.

Lemma forecast_bars_witness :
  df_forecast (fun k => 89 + Z.of_nat k)%Z
    = [("1h", 89); ("2h", 90); ("3h", 91); ("4h", 92); ("5h", 93); ("6h", 94)]%string%Z /\
  Forall (fun bar => (20 <= snd bar <= 94)%Z)
         (df_forecast (fun k => 89 + Z.of_nat k)%Z).
Proof.
  split; [reflexivity|].
  apply (forecast_bars (fun k => 89 + Z.of_nat k)%Z).
  intros k Hk. unfold forecast_outcomes. apply SyntheticFacts.In_randint. lia.
Defined.

End ChartsFacts.

(** ** The alerts log in simulated mode *)

Module SimulatedLogFacts.
Import Frame Session Reach Classifier Metrics.

Lemma action_cell_int (n : Z) : action_cell (Int n) = Some (action n).
Proof.
  unfold action_cell, action, cell_gt.
  destruct (n >? 70); [reflexivity|]. destruct (n >? 40); reflexivity.
Qed.

Lemma with_action_new_data (ds : list Draws) :
  with_action (map new_data ds)
  = Some (map (fun d => (new_data d, action (risk d))) ds).
Proof.
  induction ds as [|d ds IH]; [reflexivity|].
  change (with_action (map new_data (d :: ds)))
    with (match action_cell (Int (risk d)), with_action (map new_data ds) with
          | Some a, Some l => Some ((new_data d, a) :: l)
          | _, _ => None
          end).
  now rewrite action_cell_int, IH.
Qed.

(** X14. In simulated mode the alerts log is always built, it never
    raises: it is exactly the five most recent readings of the session
    (all of them while the session holds fewer), oldest first and ending
    with the reading just drawn, each paired with the action of its own
    integer risk. *)
Theorem simulated_alerts_log (inputs : list TickInput) (d : Draws) :
  let readings := simulated_draws inputs ++ [d] in
  let recent := skipn (List.length readings - 5) readings in
  exists df,
    snd (data_source (simulated d) (run inputs None)) = Continue df /\
    alerts df = Value (map (fun d' => (new_data d', action (risk d'))) recent) /\
    List.length recent = Nat.min (List.length readings) 5 /\
    (exists earlier, recent = earlier ++ [d]).
Proof.
  intros readings recent.
  set (ss := run inputs None).
  assert (W : well_formed ss) by (apply ReachFacts.well_formed_run; exact I).
  pose proof (ReachFacts.appended_columns ss d W) as C.
  assert (R : rows (appended ss d) = map new_data readings).
  { rewrite ReachFacts.appended_rows. unfold ss, readings.
    rewrite SessionFacts.window_run, map_app. reflexivity. }
  exists (tail 50 (appended ss d)). split; [reflexivity|]. split; [|split].
  - unfold alerts.
    change (columns (tail 50 (appended ss d))) with (columns (appended ss d)).
    rewrite C. cbn [existsb String.eqb Ascii.eqb Bool.eqb orb session_columns].
    cbn [tail rows]. rewrite R, length_skipn, skipn_skipn, length_map.
    replace (List.length readings - (List.length readings - 50) - 5
             + (List.length readings - 50))%nat
      with (List.length readings - 5)%nat by lia.
    rewrite skipn_map, with_action_new_data. reflexivity.
  - unfold recent. rewrite length_skipn. lia.
  - unfold recent, readings.
    exists (skipn (List.length (simulated_draws inputs ++ [d]) - 5)
                  (simulated_draws inputs)).
    apply ReachFacts.skipn_snoc. rewrite length_app. simpl. lia.
Qed.

End SimulatedLogFacts.
